(** * The mock transcription provider of [demo_app.py]

    A shallow embedding of [MockTranscriptionProvider]: the dataclass, its
    [__post_init__], its properties and its two accessor methods,
    [query_records] and [get_source_block].

    Python values are an inductive type, a [dict] with string keys is a
    [gmap string PyVal], a method is a function from the object's state to
    the state after the call and either the exception raised or the value
    returned. *)

From Stdlib Require Import ZArith String Floats.
From stdpp Require Import gmap strings list fin_maps.

#[local] Set Warnings "-inexact-float,-register-all".
#[local] Open Scope string_scope.
#[local] Open Scope list_scope.
#[local] Open Scope Z_scope.

(** ** Python values *)

(** The values a [Dict[str, Any]] record of this file holds: [None], [bool],
    [int], [float] (IEEE binary64, as in CPython), [str], [list] and [dict]
    with [str] keys. *)
Inductive PyVal : Type :=
  | VNone
  | VBool (b : bool)
  | VInt (z : Z)
  | VFloat (f : float)
  | VStr (s : string)
  | VList (l : list PyVal)
  | VDict (d : gmap string PyVal).

(** [Dict[str, Any]]. *)
Abbreviation PyDict := (gmap string PyVal).

(** The exceptions the modelled code can raise. *)
Inductive PyExc : Type :=
  | KeyError (key : string).

(** The outcome of evaluating an expression: an exception or a value. *)
Abbreviation Outcome A := (PyExc + A)%type.

(** [d[key]]: the value stored under [key], [KeyError] when there is none. *)
Definition getitem (d : PyDict) (key : string) : Outcome PyVal :=
  match d !! key with
  | Some v => inr v
  | None => inl (KeyError key)
  end.

(** [d.get(key, dflt)]: the value stored under [key], [dflt] when there is
    none. [d.get(key)] is [dict_get d key VNone]. *)
Definition dict_get (d : PyDict) (key : string) (dflt : PyVal) : PyVal :=
  match d !! key with
  | Some v => v
  | None => dflt
  end.

(** [v == s] for a [str] [s]: a value of another type never equals a
    string. *)
Definition py_eq_str (v : PyVal) (s : string) : bool :=
  match v with
  | VStr s' => bool_decide (s' = s)
  | _ => false
  end.

(** [l[:stop]] for an [int] [stop]: the first [stop] elements when [stop]
    is not negative, all but the last [-stop] elements when it is; the
    bounds are clamped to the list, never an error. *)
Definition slice_to {A : Type} (l : list A) (stop : Z) : list A :=
  if 0 <=? stop then take (Z.to_nat stop) l
  else take (Z.to_nat (Z.of_nat (length l) + stop)) l.

(** [not l] for a list [l]: true exactly on the empty list. *)
Definition py_not_list {A : Type} (l : list A) : bool :=
  match l with
  | [] => true
  | _ :: _ => false
  end.

(** ** Methods: state passing with exceptions *)

Section Method.
Context {S : Type}.

(** A method body run on an object in state [S]: the state it leaves and
    what it raised or returned. *)
Definition Py (A : Type) : Type := S -> S * Outcome A.

Definition ret {A : Type} (a : A) : Py A := fun s => (s, inr a).

Definition raise {A : Type} (e : PyExc) : Py A := fun s => (s, inl e).

Definition bind {A B : Type} (m : Py A) (k : A -> Py B) : Py B :=
  fun s =>
    match m s with
    | (s', inr a) => k a s'
    | (s', inl e) => (s', inl e)
    end.

(** Reading an attribute of [self]. *)
Definition gets {A : Type} (f : S -> A) : Py A := fun s => (s, inr (f s)).

(** Assigning to an attribute of [self]. *)
Definition modify (f : S -> S) : Py unit := fun s => (f s, inr tt).

(** An expression that does not touch [self]. *)
Definition lift {A : Type} (o : Outcome A) : Py A := fun s => (s, o).
End Method.

Arguments Py : clear implicits.

Declare Scope py_scope.
Delimit Scope py_scope with py.
Notation "x <- m ;; k" := (bind m (fun x => k))
  (at level 100, m at next level, right associativity) : py_scope.
#[local] Open Scope py_scope.

(** [for x in l: acc = body(x, acc)], with [acc] the local variables the
    loop body updates; an exception leaves the loop. *)
Fixpoint for_in {S A B : Type} (l : list A) (acc : B)
    (body : A -> B -> Py S B) : Py S B :=
  match l with
  | [] => ret acc
  | x :: rest => acc' <- body x acc ;; for_in rest acc' body
  end.

(** ** The models of [cjm_source_provider.models]

    [SourceRecord] and [SourceBlock] are classes of an imported package;
    the code only calls their constructors with keyword arguments. Each is
    a record of the keyword arguments it is built from. *)

Module SourceRecord.
Record t : Type := mk {
  record_id : PyVal;
  media_path : PyVal;
  text : PyVal;
  metadata : PyVal;
  created_at : PyVal;
  provider_id : string
}.
End SourceRecord.

Module SourceBlock.
Record t : Type := mk {
  id : PyVal;
  provider_id : string;
  text : PyVal;
  media_path : PyVal;
  metadata : PyVal
}.
End SourceBlock.

(** ** [datetime] arithmetic *)

(** [timedelta(days=d, hours=h)], in microseconds. *)
Definition timedelta (days hours : Z) : Z :=
  (days * 86400 + hours * 3600) * 1000000.

(** ** The provider *)

Module MockTranscriptionProvider.

(** The dataclass: its three fields. *)
Record t : Type := mk {
  _id : string;
  _name : string;
  _records : list PyDict
}.

(** The defaults of the fields [_id] and [_name], and of the argument
    [limit] of [query_records]; [_records] defaults to a fresh empty
    list. *)
Definition default_id : string := "mock:demo-transcriptions".
Definition default_name : string := "Demo Transcriptions".
Definition default_limit : Z := 100.

Definition provider_id : Py t string := gets _id.

Definition provider_name : Py t string := gets _name.

Definition provider_type : Py t string := ret "transcription_db".

Definition is_available : Py t bool := ret true.

(** One turn of the loop of [query_records]: the [SourceRecord] built
    from [rec] is appended to the local list [records]. *)
Definition query_records_body (rec : PyDict) (records : list SourceRecord.t)
    : Py t (list SourceRecord.t) :=
  record_id <- lift (getitem rec "job_id") ;;
  self_id <- gets _id ;;
  ret (records ++ [SourceRecord.mk
                     record_id
                     (dict_get rec "audio_path" (VStr ""))
                     (dict_get rec "text" (VStr ""))
                     (dict_get rec "metadata" (VDict ∅))
                     (dict_get rec "created_at" (VStr ""))
                     self_id]).

Definition query_records (limit : Z) : Py t (list SourceRecord.t) :=
  recs <- gets _records ;;
  for_in (slice_to recs limit) [] query_records_body.

(** The loop of [get_source_block] over the records still to visit: it
    returns at the first record whose ["job_id"] equals [record_id], and
    falls through to [return None]. *)
Fixpoint get_source_block_loop (record_id : string) (recs : list PyDict)
    : Py t (option SourceBlock.t) :=
  match recs with
  | [] => ret None
  | rec :: rest =>
      job_id <- lift (getitem rec "job_id") ;;
      if py_eq_str job_id record_id then
        block_id <- lift (getitem rec "job_id") ;;
        self_id <- gets _id ;;
        ret (Some (SourceBlock.mk
                     block_id
                     self_id
                     (dict_get rec "text" (VStr ""))
                     (dict_get rec "audio_path" VNone)
                     (dict_get rec "metadata" (VDict ∅))))
      else get_source_block_loop record_id rest
  end.

Definition get_source_block (record_id : string)
    : Py t (option SourceBlock.t) :=
  recs <- gets _records ;;
  get_source_block_loop record_id recs.

Section Clock.
(** [now k] is the [k]-th reading of [datetime.now()] during a call of
    [_generate_sample_data], in microseconds; [isoformat] renders a
    point in time as [datetime.isoformat] does. *)
Variable now : nat -> Z.
Variable isoformat : Z -> string.

(** One literal of the list [samples]. *)
Definition sample (job_id audio_path text : string) (created_at : Z)
    (chapter : Z) (duration : float) : PyDict :=
  <["job_id" := VStr job_id]>
    (<["audio_path" := VStr audio_path]>
      (<["text" := VStr text]>
        (<["created_at" := VStr (isoformat created_at)]>
          (<["metadata" :=
               VDict (<["chapter" := VInt chapter]>
                       (<["duration" := VFloat duration]> ∅))]> ∅)))).

Definition _generate_sample_data : Py t (list PyDict) :=
  ret [
    sample "job_demo_001" "/audio/sun_tzu_ch1.mp3"
      ("Laying Plans. Sun Tzu said: The art of war is of vital importance "
       ++ "to the State. It is a matter of life and death, a road either to "
       ++ "safety or to ruin. Hence it is a subject of inquiry which can on "
       ++ "no account be neglected.")%string
      (now 0 - timedelta 1 0) 1 45.2%float;
    sample "job_demo_002" "/audio/sun_tzu_ch1.mp3"
      ("The art of war, then, is governed by five constant factors, to be "
       ++ "taken into account in one's deliberations, when seeking to determine "
       ++ "the conditions obtaining in the field.")%string
      (now 1 - timedelta 1 1) 1 32.1%float;
    sample "job_demo_003" "/audio/sun_tzu_ch2.mp3"
      ("Waging War. Sun Tzu said: In the operations of war, where there are "
       ++ "in the field a thousand swift chariots, as many heavy chariots, and "
       ++ "a hundred thousand mail-clad soldiers, with provisions enough to "
       ++ "carry them a thousand li, the expenditure at home and at the front "
       ++ "will reach the total of a thousand ounces of silver per day.")%string
      (now 2 - timedelta 2 0) 2 58.7%float;
    sample "job_demo_004" "/audio/sun_tzu_ch3.mp3"
      ("Attack by Stratagem. Sun Tzu said: In the practical art of war, the "
       ++ "best thing of all is to take the enemy's country whole and intact; "
       ++ "to shatter and destroy it is not so good.")%string
      (now 3 - timedelta 3 0) 3 41.5%float;
    sample "job_demo_005" "/audio/sun_tzu_ch3.mp3"
      ("So, too, it is better to recapture an army entire than to destroy it, "
       ++ "to capture a regiment, a detachment or a company entire than to "
       ++ "destroy them.")%string
      (now 4 - timedelta 3 2) 3 28.3%float
  ].

(** [if not self._records: self._records = self._generate_sample_data()] *)
Definition __post_init__ : Py t unit :=
  recs <- gets _records ;;
  if py_not_list recs then
    samples <- _generate_sample_data ;;
    modify (fun self => mk (_id self) (_name self) samples)
  else ret tt.

(** [MockTranscriptionProvider(_id, _name, _records)]: the generated
    [__init__] stores the three fields and calls [__post_init__]. *)
Definition construct (id name : string) (records : list PyDict) : t :=
  fst (__post_init__ (mk id name records)).

(** [MockTranscriptionProvider()]. *)
Definition construct_default : t :=
  construct default_id default_name [].
End Clock.

(** The calls a client makes on a provider through the two accessors,
    and the provider after a sequence of them. *)
Inductive Call : Type :=
  | QueryRecords (limit : Z)
  | GetSourceBlock (record_id : string).

Inductive Result : Type :=
  | Records (out : Outcome (list SourceRecord.t))
  | Block (out : Outcome (option SourceBlock.t)).

Definition run_call (c : Call) (self : t) : t * Result :=
  match c with
  | QueryRecords limit =>
      let (self', out) := query_records limit self in (self', Records out)
  | GetSourceBlock record_id =>
      let (self', out) := get_source_block record_id self in (self', Block out)
  end.

Fixpoint run_calls (cs : list Call) (self : t) : t :=
  match cs with
  | [] => self
  | c :: rest => run_calls rest (fst (run_call c self))
  end.

End MockTranscriptionProvider.

Import MockTranscriptionProvider.

(** ** The provider interface *)

(** Modelled from the spec: the external provider interface, declared in an
    imported package; the spec lists its members as [provider_id],
    [provider_name], [is_available], [query_records] and
    [get_source_block]. *)
Class SourceProvider (S : Type) : Type := {
  source_provider_id : Py S string;
  source_provider_name : Py S string;
  source_is_available : Py S bool;
  source_query_records : Z -> Py S (list SourceRecord.t);
  source_get_source_block : string -> Py S (option SourceBlock.t)
}.

#[export] Instance mock_source_provider : SourceProvider t := {|
  source_provider_id := provider_id;
  source_provider_name := provider_name;
  source_is_available := is_available;
  source_query_records := query_records;
  source_get_source_block := get_source_block
|}.

(** ** Vocabulary of the statements *)

(** The call [m] on the object [s] returns a value: it raises nothing. *)
Definition returns {S A : Type} (m : Py S A) (s : S) : Prop :=
  exists a : A, snd (m s) = inr a.

(** The call [m] is read-only: no run of it changes the object. *)
Definition read_only {S A : Type} (m : Py S A) : Prop :=
  forall s : S, fst (m s) = s.

(** The record has a ["job_id"] key. *)
Definition has_job_id (rec : PyDict) : Prop := is_Some (rec !! "job_id").

(** The record's ["job_id"] is the string [record_id]. *)
Definition job_id_is (record_id : string) (rec : PyDict) : Prop :=
  rec !! "job_id" = Some (VStr record_id).

(** The record has a ["job_id"] and it does not equal the string
    [record_id]: the loop of [get_source_block] passes over it. *)
Definition other_job_id (record_id : string) (rec : PyDict) : Prop :=
  exists v : PyVal, rec !! "job_id" = Some v /\ v <> VStr record_id.

(** The [SourceRecord] [sr] is the conversion of the stored record [rec]
    by the provider whose [_id] is [pid]. *)
Definition converts_to (pid : string) (rec : PyDict) (sr : SourceRecord.t)
    : Prop :=
  rec !! "job_id" = Some (SourceRecord.record_id sr) /\
  SourceRecord.media_path sr = default (VStr "") (rec !! "audio_path") /\
  SourceRecord.text sr = default (VStr "") (rec !! "text") /\
  SourceRecord.metadata sr = default (VDict ∅) (rec !! "metadata") /\
  SourceRecord.created_at sr = default (VStr "") (rec !! "created_at") /\
  SourceRecord.provider_id sr = pid.

(** The [SourceBlock] [b] is built from the stored record [rec] by the
    provider whose [_id] is [pid]. *)
Definition block_of (pid : string) (rec : PyDict) (b : SourceBlock.t) : Prop :=
  rec !! "job_id" = Some (SourceBlock.id b) /\
  SourceBlock.provider_id b = pid /\
  SourceBlock.text b = default (VStr "") (rec !! "text") /\
  SourceBlock.media_path b = default VNone (rec !! "audio_path") /\
  SourceBlock.metadata b = default (VDict ∅) (rec !! "metadata").

(** The record [query_records] builds from a record that has a
    ["job_id"]. *)
Definition source_record_of (pid : string) (rec : PyDict) : SourceRecord.t :=
  SourceRecord.mk
    (dict_get rec "job_id" VNone)
    (dict_get rec "audio_path" (VStr ""))
    (dict_get rec "text" (VStr ""))
    (dict_get rec "metadata" (VDict ∅))
    (dict_get rec "created_at" (VStr ""))
    pid.

(** A clock for the closed examples: every reading is the epoch, rendered
    as the empty string. *)
Definition epoch_clock : nat -> Z := fun _ => 0.
Definition blank_isoformat : Z -> string := fun _ => "".

(** Small providers for the closed examples. *)
Definition job (job_id : string) : PyDict := <["job_id" := VStr job_id]> ∅.

Definition provider_of (records : list PyDict) : t :=
  construct epoch_clock blank_isoformat "p" "P" records.

(** ** The selection state of [main]

    [get_selection_state], the helper that [main] defines for the page
    handlers, reads the workflow state of a session from the state store,
    initialises it on a first visit, and extracts the state of the
    selection step with a default for every key. *)

(** The exception [v.get(...)] raises on a value that is not a [dict]:
    neither [None], [bool], [int], [float], [str] nor [list] has an
    attribute [get]. *)
Inductive PyAttrExc : Type :=
  | AttributeError (attr : string).

(** [v.get(key, dflt)] for a value [v] of any type. *)
Definition py_get (v : PyVal) (key : string) (dflt : PyVal)
    : PyAttrExc + PyVal :=
  match v with
  | VDict d => inr (dict_get d key dflt)
  | _ => inl (AttributeError "get")
  end.

(** [not d] for a dict [d]: true exactly on the empty dict. *)
Definition py_not_dict (d : PyDict) : bool := Nat.eqb (size d) 0.

(** The two operations of the imported [SQLiteWorkflowStateStore] that the
    helper calls, on a store in state [St]: [get_state(workflow_id,
    session_id)], which returns the stored dict (the empty dict when there
    is none), and [update_state(workflow_id, session_id, state)]. *)
Class WorkflowStateStore (St : Type) : Type := {
  get_state : St -> string -> string -> PyDict;
  update_state : St -> string -> string -> PyDict -> St
}.

(** [workflow_id = "demo-selection"] *)
Definition workflow_id : string := "demo-selection".

(** [{"step_states": {"selection": {}}, "source_tab": "db"}] *)
Definition initial_state : PyDict :=
  <["step_states" := VDict (<["selection" := VDict ∅]> ∅)]>
    (<["source_tab" := VStr "db"]> ∅).

(** The dict [get_selection_state] returns, built from the workflow state
    [state]: the four keys of the selection step, read in the order of the
    dict display, then the tab, read at the root of the state. *)
Definition selection_state_of (state : PyDict) : PyAttrExc + PyDict :=
  match py_get (dict_get state "step_states" (VDict ∅))
          "selection" (VDict ∅) with
  | inl e => inl e
  | inr step_state =>
      match py_get step_state "selected_sources" (VList []) with
      | inl e => inl e
      | inr selected_sources =>
          match py_get step_state "grouping_mode" (VStr "media_path") with
          | inl e => inl e
          | inr grouping_mode =>
              match py_get step_state "external_db_paths" (VList []) with
              | inl e => inl e
              | inr external_db_paths =>
                  match py_get step_state "file_browser_state" (VDict ∅) with
                  | inl e => inl e
                  | inr file_browser_state =>
                      inr (<["selected_sources" := selected_sources]>
                            (<["grouping_mode" := grouping_mode]>
                              (<["external_db_paths" := external_db_paths]>
                                (<["file_browser_state" := file_browser_state]>
                                  (<["active_tab" :=
                                       dict_get state "source_tab" (VStr "db")]>
                                     ∅)))))
                  end
              end
          end
      end
  end.

(** [get_selection_state(sess)], with [session_id] the identifier that the
    imported [get_session_id] gives for [sess]: the store after the call,
    and what the call raised or returned. *)
Definition get_selection_state {St : Type} `{WorkflowStateStore St}
    (session_id : string) (store : St) : St * (PyAttrExc + PyDict) :=
  let state := get_state store workflow_id session_id in
  if py_not_dict state then
    (update_state store workflow_id session_id initial_state,
     selection_state_of initial_state)
  else (store, selection_state_of state).

(** A store for the closed examples: a finite map from the pair of
    identifiers to the stored dict. *)
#[export] Instance map_state_store
    : WorkflowStateStore (gmap (string * string) PyDict) := {|
  get_state store wid sid := default ∅ (store !! (wid, sid));
  update_state store wid sid state := <[(wid, sid) := state]> store
|}.

(** The dict returned on a first visit. *)
Definition default_selection_state : PyDict :=
  <["selected_sources" := VList []]>
    (<["grouping_mode" := VStr "media_path"]>
      (<["external_db_paths" := VList []]>
        (<["file_browser_state" := VDict ∅]>
          (<["active_tab" := VStr "db"]> ∅)))).

(** The workflow state holds a selection step that the helper can read:
    ["step_states"], when present, is a dict, and its ["selection"], when
    present, is a dict. *)
Definition readable_state (state : PyDict) : Prop :=
  exists steps : PyDict,
    dict_get state "step_states" (VDict ∅) = VDict steps /\
    exists step_state : PyDict,
      dict_get steps "selection" (VDict ∅) = VDict step_state.

(** * Properties *)

(** ** Python primitives *)

Lemma dict_get_default (d : PyDict) (key : string) (dflt : PyVal) :
  dict_get d key dflt = default dflt (d !! key).
Proof. unfold dict_get. by destruct (d !! key). Qed.

Lemma getitem_has_job_id (rec : PyDict) :
  has_job_id rec ->
  getitem rec "job_id" = inr (dict_get rec "job_id" VNone).
Proof. intros [v Hv]. unfold getitem, dict_get. by rewrite Hv. Qed.

Lemma getitem_no_job_id (rec : PyDict) :
  rec !! "job_id" = None -> getitem rec "job_id" = inl (KeyError "job_id").
Proof. intros Hn. unfold getitem. by rewrite Hn. Qed.

Lemma py_eq_str_true (v : PyVal) (s : string) :
  py_eq_str v s = true <-> v = VStr s.
Proof.
  destruct v; simpl; try (split; [discriminate | intros [=]]).
  rewrite bool_decide_eq_true. split; [by intros -> | by intros [= ->]].
Qed.

Lemma slice_to_nonneg {A : Type} (l : list A) (stop : Z) :
  0 <= stop -> slice_to l stop = take (Z.to_nat stop) l.
Proof. intros Hs. unfold slice_to. by rewrite (proj2 (Z.leb_le 0 stop) Hs). Qed.

Lemma slice_to_neg {A : Type} (l : list A) (k : nat) :
  (0 < k)%nat -> slice_to l (- Z.of_nat k) = take (length l - k) l.
Proof.
  intros Hk. unfold slice_to.
  destruct (0 <=? - Z.of_nat k) eqn:E; [apply Z.leb_le in E; lia |].
  f_equal. lia.
Qed.

Lemma slice_to_length {A : Type} (l : list A) (stop : Z) :
  0 <= stop -> (Z.of_nat (length (slice_to l stop)) <= stop)%Z.
Proof. intros Hs. rewrite slice_to_nonneg, length_take by done. lia. Qed.

(** ** The loops *)

Section Frame.
Context {S : Type}.

Lemma read_only_ret {A : Type} (a : A) : read_only (ret a : Py S A).
Proof. by intros s. Qed.

Lemma read_only_gets {A : Type} (f : S -> A) : read_only (gets f : Py S A).
Proof. by intros s. Qed.

Lemma read_only_lift {A : Type} (o : Outcome A) : read_only (lift o : Py S A).
Proof. by intros s. Qed.

Lemma read_only_bind {A B : Type} (m : Py S A) (k : A -> Py S B) :
  read_only m -> (forall a, read_only (k a)) -> read_only (bind m k).
Proof.
  intros Hm Hk s. unfold bind. specialize (Hm s).
  destruct (m s) as [s' [e | a]]; simpl in *; subst s'; [done | apply Hk].
Qed.

Lemma read_only_for_in {A B : Type} (l : list A) (body : A -> B -> Py S B) :
  (forall x acc, read_only (body x acc)) ->
  forall acc, read_only (for_in l acc body).
Proof.
  intros Hbody. induction l as [| x rest IH]; intros acc; simpl.
  - apply read_only_ret.
  - apply read_only_bind; [apply Hbody | intros acc'; apply IH].
Qed.
End Frame.

Create HintDb frame.
#[local] Hint Resolve read_only_ret read_only_gets read_only_lift : frame.

Lemma read_only_query_records_body (rec : PyDict) (acc : list SourceRecord.t) :
  read_only (query_records_body rec acc).
Proof.
  unfold query_records_body.
  repeat (apply read_only_bind; [auto with frame | intros ?]).
  auto with frame.
Qed.

Lemma read_only_query_records (limit : Z) : read_only (query_records limit).
Proof.
  unfold query_records. apply read_only_bind; [auto with frame | intros recs].
  apply read_only_for_in, read_only_query_records_body.
Qed.

Lemma read_only_get_source_block_loop (record_id : string) (recs : list PyDict) :
  read_only (get_source_block_loop record_id recs).
Proof.
  induction recs as [| rec rest IH]; simpl; [auto with frame |].
  apply read_only_bind; [auto with frame | intros job_id].
  destruct (py_eq_str job_id record_id); [| exact IH].
  repeat (apply read_only_bind; [auto with frame | intros ?]).
  auto with frame.
Qed.

Lemma read_only_get_source_block (record_id : string) :
  read_only (get_source_block record_id).
Proof.
  unfold get_source_block. apply read_only_bind; [auto with frame | intros recs].
  apply read_only_get_source_block_loop.
Qed.

Lemma run_call_frame (c : Call) (self : t) : fst (run_call c self) = self.
Proof.
  destruct c as [limit | record_id]; simpl.
  - pose proof (read_only_query_records limit self) as H.
    by destruct (query_records limit self).
  - pose proof (read_only_get_source_block record_id self) as H.
    by destruct (get_source_block record_id self).
Qed.

Lemma run_calls_frame (cs : list Call) (self : t) : run_calls cs self = self.
Proof.
  revert self. induction cs as [| c rest IH]; intros self; simpl; [done |].
  by rewrite run_call_frame.
Qed.

(** The loop of [query_records] over records that all have a ["job_id"]:
    each is converted and appended, in order. *)
Lemma query_records_loop_ok (recs : list PyDict) (acc : list SourceRecord.t)
    (self : t) :
  Forall has_job_id recs ->
  for_in recs acc query_records_body self
  = (self, inr (acc ++ map (source_record_of (_id self)) recs)).
Proof.
  intros Hall. revert acc.
  induction Hall as [| rec rest Hrec _ IH]; intros acc; simpl.
  - by rewrite app_nil_r.
  - unfold bind at 1. unfold query_records_body at 1.
    unfold bind, lift, gets, ret. rewrite (getitem_has_job_id rec Hrec).
    rewrite IH. by rewrite <- app_assoc.
Qed.

(** The loop of [query_records] stops with [KeyError] at the first record
    without a ["job_id"]. *)
Lemma query_records_loop_err (pre post : list PyDict) (rec : PyDict)
    (acc : list SourceRecord.t) (self : t) :
  Forall has_job_id pre ->
  rec !! "job_id" = None ->
  for_in (pre ++ rec :: post) acc query_records_body self
  = (self, inl (KeyError "job_id")).
Proof.
  intros Hpre Hrec. revert acc.
  induction Hpre as [| r rest Hr _ IH]; intros acc; simpl.
  - unfold bind at 1. unfold query_records_body.
    unfold bind, lift. by rewrite (getitem_no_job_id rec Hrec).
  - unfold bind at 1. unfold query_records_body at 1.
    unfold bind, lift, gets, ret. rewrite (getitem_has_job_id r Hr).
    apply IH.
Qed.

Lemma query_records_ok (limit : Z) (self : t) :
  Forall has_job_id (slice_to (_records self) limit) ->
  query_records limit self
  = (self, inr (map (source_record_of (_id self))
                  (slice_to (_records self) limit))).
Proof.
  intros Hall. unfold query_records, bind, gets.
  by rewrite query_records_loop_ok.
Qed.

(** A list either has a ["job_id"] in every record or splits at the first
    record without one. *)
Lemma first_without_job_id (recs : list PyDict) :
  Forall has_job_id recs \/
  exists pre rec post,
    recs = pre ++ rec :: post /\ Forall has_job_id pre /\
    rec !! "job_id" = None.
Proof.
  induction recs as [| r rest IH]; [by left |].
  destruct (r !! "job_id") as [v |] eqn:Hr.
  - assert (has_job_id r) as Hj by (by exists v).
    destruct IH as [Hall | (pre & rec & post & -> & Hpre & Hrec)].
    + left. by constructor.
    + right. exists (r :: pre), rec, post. repeat split; [by constructor | done].
  - right. by exists [], r, rest.
Qed.

Lemma query_records_err (limit : Z) (self : t) :
  ~ Forall has_job_id (slice_to (_records self) limit) ->
  query_records limit self = (self, inl (KeyError "job_id")).
Proof.
  intros Hnot. unfold query_records, bind, gets.
  destruct (first_without_job_id (slice_to (_records self) limit))
    as [Hall | (pre & rec & post & -> & Hpre & Hrec)]; [done |].
  by apply query_records_loop_err.
Qed.

Lemma source_record_of_converts (pid : string) (rec : PyDict) :
  has_job_id rec -> converts_to pid rec (source_record_of pid rec).
Proof.
  intros [v Hv]. unfold converts_to, source_record_of; simpl.
  rewrite !dict_get_default, Hv. done.
Qed.

Lemma converted_take (pid : string) (recs : list PyDict) (n i : nat) :
  Forall has_job_id (take n recs) ->
  (i < Nat.min n (length recs))%nat ->
  exists rec sr,
    recs !! i = Some rec /\
    map (source_record_of pid) (take n recs) !! i = Some sr /\
    converts_to pid rec sr.
Proof.
  intros Hall Hi.
  destruct (lookup_lt_is_Some_2 recs i) as [rec Hrec]; [lia |].
  assert (take n recs !! i = Some rec) as Htake.
  { rewrite lookup_take_lt by lia. exact Hrec. }
  exists rec, (source_record_of pid rec). split; [exact Hrec |]. split.
  - change (map (source_record_of pid) (take n recs))
      with (source_record_of pid <$> take n recs).
    by rewrite list_lookup_fmap, Htake.
  - apply source_record_of_converts.
    rewrite Forall_forall in Hall. apply Hall.
    apply list_elem_of_lookup. by exists i.
Qed.

(** The loop of [get_source_block]: it passes over records with another
    ["job_id"], returns at the first match, falls through to [None], and
    raises at a record without a ["job_id"]. *)
Lemma get_source_block_loop_skip (record_id : string) (rec : PyDict)
    (rest : list PyDict) (self : t) :
  other_job_id record_id rec ->
  get_source_block_loop record_id (rec :: rest) self
  = get_source_block_loop record_id rest self.
Proof.
  intros (v & Hv & Hne). simpl. unfold bind at 1. unfold lift, getitem.
  rewrite Hv. destruct (py_eq_str v record_id) eqn:E; [| done].
  by apply py_eq_str_true in E.
Qed.

Lemma get_source_block_loop_found (record_id : string)
    (pre post : list PyDict) (rec : PyDict) (self : t) :
  Forall (other_job_id record_id) pre ->
  job_id_is record_id rec ->
  get_source_block_loop record_id (pre ++ rec :: post) self
  = (self, inr (Some (SourceBlock.mk
                        (VStr record_id)
                        (_id self)
                        (dict_get rec "text" (VStr ""))
                        (dict_get rec "audio_path" VNone)
                        (dict_get rec "metadata" (VDict ∅))))).
Proof.
  intros Hpre Hrec. induction Hpre as [| r rest Hr _ IH].
  - simpl. unfold bind at 1. unfold lift, getitem. rewrite Hrec.
    rewrite (proj2 (py_eq_str_true (VStr record_id) record_id) eq_refl).
    unfold bind, gets, ret. by rewrite Hrec.
  - change ((r :: rest) ++ rec :: post) with (r :: (rest ++ rec :: post)).
    by rewrite get_source_block_loop_skip.
Qed.

Lemma get_source_block_loop_none (record_id : string) (recs : list PyDict)
    (self : t) :
  Forall (other_job_id record_id) recs ->
  get_source_block_loop record_id recs self = (self, inr None).
Proof.
  intros Hall. induction Hall as [| r rest Hr _ IH]; [done |].
  by rewrite get_source_block_loop_skip.
Qed.

Lemma get_source_block_loop_err (record_id : string)
    (pre post : list PyDict) (rec : PyDict) (self : t) :
  Forall (other_job_id record_id) pre ->
  rec !! "job_id" = None ->
  get_source_block_loop record_id (pre ++ rec :: post) self
  = (self, inl (KeyError "job_id")).
Proof.
  intros Hpre Hrec. induction Hpre as [| r rest Hr _ IH].
  - simpl. unfold bind at 1. unfold lift, getitem. by rewrite Hrec.
  - change ((r :: rest) ++ rec :: post) with (r :: (rest ++ rec :: post)).
    by rewrite get_source_block_loop_skip.
Qed.

Lemma get_source_block_loop_returns (record_id : string) (recs : list PyDict)
    (self : t) :
  Forall has_job_id recs ->
  returns (get_source_block_loop record_id recs) self.
Proof.
  intros Hall. induction Hall as [| r rest [v Hv] _ IH].
  - by exists None.
  - destruct (decide (py_eq_str v record_id = true)) as [Heq | Hne].
    + apply py_eq_str_true in Heq. subst v. unfold returns.
      change (r :: rest) with ([] ++ r :: rest).
      rewrite (get_source_block_loop_found record_id [] rest r self);
        [by eexists | constructor | exact Hv].
    + unfold returns. rewrite get_source_block_loop_skip; [exact IH |].
      exists v. split; [exact Hv |]. intros ->. apply Hne.
      by apply py_eq_str_true.
Qed.

Lemma block_of_found (record_id pid : string) (rec : PyDict) :
  job_id_is record_id rec ->
  block_of pid rec
    (SourceBlock.mk (VStr record_id) pid
       (dict_get rec "text" (VStr ""))
       (dict_get rec "audio_path" VNone)
       (dict_get rec "metadata" (VDict ∅))).
Proof.
  intros Hrec. unfold block_of; simpl. by rewrite !dict_get_default.
Qed.

(** What a call returns depends on [_id] and [_records] only. *)
Lemma query_records_loop_same_id (recs : list PyDict)
    (acc : list SourceRecord.t) (self other : t) :
  _id self = _id other ->
  snd (for_in recs acc query_records_body self)
  = snd (for_in recs acc query_records_body other).
Proof.
  intros Hid.
  destruct (first_without_job_id recs)
    as [Hall | (pre & rec & post & -> & Hpre & Hrec)].
  - by rewrite !query_records_loop_ok, Hid.
  - by rewrite !query_records_loop_err.
Qed.

Lemma get_source_block_loop_same_id (record_id : string) (recs : list PyDict)
    (self other : t) :
  _id self = _id other ->
  snd (get_source_block_loop record_id recs self)
  = snd (get_source_block_loop record_id recs other).
Proof.
  intros Hid. induction recs as [| rec rest IH]; [done |].
  simpl. unfold bind, lift, gets, ret.
  destruct (getitem rec "job_id") as [e | v]; [done |].
  destruct (py_eq_str v record_id); [| exact IH].
  simpl. by rewrite Hid.
Qed.

Lemma run_call_same_id_records (c : Call) (self other : t) :
  _id self = _id other ->
  _records self = _records other ->
  snd (run_call c self) = snd (run_call c other).
Proof.
  intros Hid Hrecs. destruct c as [limit | record_id]; simpl.
  - pose proof (query_records_loop_same_id
                  (slice_to (_records self) limit) [] self other Hid) as H.
    unfold query_records, bind, gets. rewrite <- Hrecs.
    destruct (for_in _ _ _ self), (for_in _ _ _ other). simpl in *.
    by rewrite H.
  - pose proof (get_source_block_loop_same_id
                  record_id (_records self) self other Hid) as H.
    unfold get_source_block, bind, gets. rewrite <- Hrecs.
    destruct (get_source_block_loop _ _ self),
      (get_source_block_loop _ _ other). simpl in *.
    by rewrite H.
Qed.

(** ** Availability *)

(** C10: [is_available()] returns [True] on every provider, whatever its
    identifier, name and records, and leaves the provider as it was. *)
Theorem is_available_always_true (self : t) :
  is_available self = (self, inr true).
Proof. reflexivity. Qed.

(** ** The accessors are read-only *)

(** C4: for every argument, [query_records] and [get_source_block] leave
    the provider as it was, whether they return or raise; so [_records]
    keeps its length, its order and every record. *)
Theorem accessors_leave_records_unchanged (self : t) :
  (forall limit : Z,
     fst (query_records limit self) = self /\
     _records (fst (query_records limit self)) = _records self) /\
  (forall record_id : string,
     fst (get_source_block record_id self) = self /\
     _records (fst (get_source_block record_id self)) = _records self).
Proof.
  split.
  - intros limit. pose proof (read_only_query_records limit self) as H.
    by rewrite H.
  - intros record_id.
    pose proof (read_only_get_source_block record_id self) as H.
    by rewrite H.
Qed.


(** ** [query_records] *)

(** C1, amended: for a limit that is not negative, on a provider whose
    first [min(limit, len(_records))] records all have a ["job_id"] key,
    [query_records(limit)] returns exactly those records, in stored order,
    each converted to a [SourceRecord]. *)
Theorem query_records_prefix (self : t) (limit : Z) :
  0 <= limit ->
  Forall has_job_id (take (Z.to_nat limit) (_records self)) ->
  exists out : list SourceRecord.t,
    query_records limit self = (self, inr out) /\
    length out = Nat.min (Z.to_nat limit) (length (_records self)) /\
    forall i : nat, (i < length out)%nat ->
      exists rec sr,
        _records self !! i = Some rec /\ out !! i = Some sr /\
        converts_to (_id self) rec sr.
Proof.
  intros Hlimit Hall.
  exists (map (source_record_of (_id self))
            (take (Z.to_nat limit) (_records self))).
  split; [| split].
  - rewrite query_records_ok; rewrite slice_to_nonneg by done; done.
  - by rewrite length_map, length_take.
  - intros i Hi. rewrite length_map, length_take in Hi.
    by apply converted_take.
Qed.

Lemma query_records_prefix_witness :
  exists out : list SourceRecord.t,
    query_records 1 (provider_of [job "a"; job "b"])
    = (provider_of [job "a"; job "b"], inr out) /\
    length out = 1%nat.
Proof.
  destruct (query_records_prefix (provider_of [job "a"; job "b"]) 1)
    as (out & Hq & Hlen & _).
  - lia.
  - repeat constructor. by exists (VStr "a").
  - exists out. split; [exact Hq | exact Hlen].
Defined.

(** C1 as stated fails: a provider constructed with one record that has no
    ["job_id"] key keeps that record, and [query_records(1)] raises
    [KeyError] on it instead of returning the converted record. *)
Lemma query_records_prefix_counterexample :
  _records (provider_of [∅]) = [∅] /\
  query_records 1 (provider_of [∅])
  = (provider_of [∅], inl (KeyError "job_id")).
Proof. split; reflexivity. Qed.

(** C6, amended: for a limit that is not negative, a list returned by
    [query_records(limit)] has at most [limit] elements. *)
Theorem query_records_at_most_limit (self : t) (limit : Z)
    (out : list SourceRecord.t) :
  0 <= limit ->
  snd (query_records limit self) = inr out ->
  Z.of_nat (length out) <= limit.
Proof.
  intros Hlimit Hout.
  destruct (first_without_job_id (slice_to (_records self) limit))
    as [Hall | (pre & rec & post & Hsplit & Hpre & Hrec)].
  - rewrite (query_records_ok limit self Hall) in Hout. simpl in Hout.
    injection Hout as <-. rewrite length_map. by apply slice_to_length.
  - unfold query_records, bind, gets in Hout. rewrite Hsplit in Hout.
    by rewrite query_records_loop_err in Hout.
Qed.

Lemma query_records_at_most_limit_witness :
  exists out : list SourceRecord.t,
    snd (query_records 1 (provider_of [job "a"; job "b"])) = inr out /\
    Z.of_nat (length out) <= 1.
Proof.
  eexists. split; [reflexivity |].
  apply (query_records_at_most_limit (provider_of [job "a"; job "b"]) 1);
    [lia | reflexivity].
Defined.

(** C6 as stated fails on a negative limit: on two records,
    [query_records(-1)] returns one record, more than the limit. *)
Lemma query_records_at_most_limit_counterexample :
  exists out : list SourceRecord.t,
    snd (query_records (-1) (provider_of [job "a"; job "b"])) = inr out /\
    length out = 1%nat /\
    -1 < Z.of_nat (length out).
Proof. eexists. split; [reflexivity |]. split; [reflexivity | simpl; lia]. Qed.

(** C9, amended: for [0 < k < len(_records)], on a provider whose first
    [len(_records) - k] records all have a ["job_id"] key,
    [query_records(-k)] returns those records converted, in stored order:
    a list that is not empty. *)
Theorem query_records_negative_limit (self : t) (k : nat) :
  (0 < k < length (_records self))%nat ->
  Forall has_job_id (take (length (_records self) - k) (_records self)) ->
  exists out : list SourceRecord.t,
    query_records (- Z.of_nat k) self = (self, inr out) /\
    out <> [] /\
    length out = (length (_records self) - k)%nat /\
    forall i : nat, (i < length out)%nat ->
      exists rec sr,
        _records self !! i = Some rec /\ out !! i = Some sr /\
        converts_to (_id self) rec sr.
Proof.
  intros Hk Hall.
  pose proof (slice_to_neg (_records self) k (proj1 Hk)) as Hslice.
  exists (map (source_record_of (_id self))
            (take (length (_records self) - k) (_records self))).
  assert (length (map (source_record_of (_id self))
                    (take (length (_records self) - k) (_records self)))
          = (length (_records self) - k)%nat) as Hlen.
  { rewrite length_map, length_take. lia. }
  split; [| split; [| split]].
  - rewrite query_records_ok; rewrite Hslice; done.
  - intros Hnil. rewrite Hnil in Hlen. simpl in Hlen. lia.
  - exact Hlen.
  - intros i Hi. rewrite Hlen in Hi. apply converted_take; [done | lia].
Qed.

(** On the default provider, [query_records(-1)] returns four records. *)
Lemma query_records_negative_limit_witness :
  exists out : list SourceRecord.t,
    query_records (-1) (construct_default epoch_clock blank_isoformat)
    = (construct_default epoch_clock blank_isoformat, inr out) /\
    length out = 4%nat.
Proof.
  destruct (query_records_negative_limit
              (construct_default epoch_clock blank_isoformat) 1)
    as (out & Hq & _ & Hlen & _).
  - simpl. lia.
  - repeat constructor; by eexists.
  - exists out. split; [exact Hq | exact Hlen].
Defined.

(** C9 as stated fails: with two records that have no ["job_id"] key,
    [query_records(-1)] raises [KeyError] instead of returning the first
    record; and a negative limit can give the empty list, as
    [query_records(-5)] does on the default provider. *)
Lemma query_records_negative_limit_counterexample :
  (0 < 1 < length (_records (provider_of [∅; ∅])))%nat /\
  query_records (-1) (provider_of [∅; ∅])
  = (provider_of [∅; ∅], inl (KeyError "job_id")) /\
  query_records (-5) (construct_default epoch_clock blank_isoformat)
  = (construct_default epoch_clock blank_isoformat, inr []).
Proof. split; [simpl; lia |]. split; reflexivity. Qed.

(** ** [get_source_block] *)

(** C2, amended: [get_source_block(record_id)] returns the block built
    from the first stored record whose ["job_id"] equals [record_id] when
    every record stored before it has a ["job_id"] key, and returns [None]
    when every stored record has a ["job_id"] key and none equals
    [record_id]. *)
Theorem get_source_block_first_match (self : t) (record_id : string) :
  (forall (pre post : list PyDict) (rec : PyDict),
     _records self = pre ++ rec :: post ->
     Forall (other_job_id record_id) pre ->
     job_id_is record_id rec ->
     exists b : SourceBlock.t,
       get_source_block record_id self = (self, inr (Some b)) /\
       SourceBlock.id b = VStr record_id /\
       block_of (_id self) rec b) /\
  (Forall (other_job_id record_id) (_records self) ->
   get_source_block record_id self = (self, inr None)).
Proof.
  split.
  - intros pre post rec Hsplit Hpre Hrec. eexists. split; [| split].
    + unfold get_source_block, bind, gets. rewrite Hsplit.
      by apply get_source_block_loop_found.
    + reflexivity.
    + by apply block_of_found.
  - intros Hall. unfold get_source_block, bind, gets.
    by apply get_source_block_loop_none.
Qed.

Lemma get_source_block_first_match_witness :
  (exists b : SourceBlock.t,
     get_source_block "b" (provider_of [job "a"; job "b"; job "b"])
     = (provider_of [job "a"; job "b"; job "b"], inr (Some b)) /\
     SourceBlock.id b = VStr "b") /\
  get_source_block "c" (provider_of [job "a"; job "b"; job "b"])
  = (provider_of [job "a"; job "b"; job "b"], inr None).
Proof.
  split.
  - destruct (proj1 (get_source_block_first_match
                       (provider_of [job "a"; job "b"; job "b"]) "b")
                [job "a"] [job "b"] (job "b"))
      as (b & Hb & Hid & _).
    + reflexivity.
    + repeat constructor. exists (VStr "a"). by split.
    + reflexivity.
    + by exists b.
  - apply (proj2 (get_source_block_first_match
                    (provider_of [job "a"; job "b"; job "b"]) "c")).
    repeat constructor; eexists; (split; [reflexivity | discriminate]).
Defined.

(** C2 as stated fails: when the first stored record has no ["job_id"]
    key, [get_source_block] raises [KeyError]; it neither returns the block
    of the matching record stored after it, nor [None] for an identifier
    that no record has. *)
Lemma get_source_block_first_match_counterexample :
  job_id_is "x" (job "x") /\
  get_source_block "x" (provider_of [∅; job "x"])
  = (provider_of [∅; job "x"], inl (KeyError "job_id")) /\
  Forall (fun rec : PyDict => rec !! "job_id" <> Some (VStr "y")) [∅; job "x"] /\
  get_source_block "y" (provider_of [∅; job "x"])
  = (provider_of [∅; job "x"], inl (KeyError "job_id")).
Proof.
  split; [reflexivity |]. split; [reflexivity |]. split; [| reflexivity].
  repeat constructor; discriminate.
Qed.

(** ** The provider interface *)

(** The three ways the scan of [get_source_block] can end: every record
    is passed over, or the first record that is not passed over matches,
    or it has no ["job_id"]. *)
Lemma scan_cases (record_id : string) (recs : list PyDict) :
  Forall (other_job_id record_id) recs \/
  (exists pre rec post,
     recs = pre ++ rec :: post /\ Forall (other_job_id record_id) pre /\
     job_id_is record_id rec) \/
  (exists pre rec post,
     recs = pre ++ rec :: post /\ Forall (other_job_id record_id) pre /\
     rec !! "job_id" = None).
Proof.
  induction recs as [| r rest IH]; [by left |].
  destruct (r !! "job_id") as [v |] eqn:Hr.
  - destruct (py_eq_str v record_id) eqn:E.
    + apply py_eq_str_true in E. subst v.
      right. left. exists [], r, rest. by repeat split.
    + assert (other_job_id record_id r) as Hother.
      { exists v. split; [done |]. intros ->.
        by rewrite (proj2 (py_eq_str_true _ _) eq_refl) in E. }
      destruct IH as [Hall | [(pre & rec & post & -> & Hpre & Hrec)
                             | (pre & rec & post & -> & Hpre & Hrec)]].
      * left. by constructor.
      * right. left. exists (r :: pre), rec, post.
        repeat split; [by constructor | done].
      * right. right. exists (r :: pre), rec, post.
        repeat split; [by constructor | done].
  - right. right. exists [], r, rest. by repeat split.
Qed.

(** C7, amended: the provider defines the five operations of the
    interface. [provider_id], [provider_name] and [is_available] return a
    value on every provider. [query_records(limit)] returns a value
    exactly when every record of [_records[:limit]] has a ["job_id"] key.
    [get_source_block(record_id)] returns a value exactly when every
    record its scan reaches has a ["job_id"] key: either every stored
    record has a ["job_id"] other than [record_id], or some record has the
    ["job_id"] [record_id] and every record stored before the first such
    one has a ["job_id"]; so it returns, in particular, when every stored
    record has the key, and a record without the key stored after the
    first match does no harm. A call that does not return raises
    [KeyError("job_id")]. *)
Theorem mock_satisfies_interface (self : t) :
  returns source_provider_id self /\
  returns source_provider_name self /\
  returns source_is_available self /\
  (forall limit : Z,
     (returns (source_query_records limit) self <->
      Forall has_job_id (slice_to (_records self) limit)) /\
     (returns (source_query_records limit) self \/
      snd (source_query_records limit self) = inl (KeyError "job_id"))) /\
  (forall record_id : string,
     (returns (source_get_source_block record_id) self <->
      Forall (other_job_id record_id) (_records self) \/
      exists (pre : list PyDict) (rec : PyDict) (post : list PyDict),
        _records self = pre ++ rec :: post /\
        Forall (other_job_id record_id) pre /\
        job_id_is record_id rec) /\
     (Forall has_job_id (_records self) ->
      returns (source_get_source_block record_id) self) /\
     (returns (source_get_source_block record_id) self \/
      snd (source_get_source_block record_id self)
      = inl (KeyError "job_id"))).
Proof.
  split; [by exists (_id self) |]. split; [by exists (_name self) |].
  split; [by exists true |]. split.
  - intros limit. simpl. unfold returns.
    destruct (first_without_job_id (slice_to (_records self) limit))
      as [Hall | (pre & rec & post & Hsplit & Hpre & Hrec)].
    + rewrite query_records_ok by done. simpl.
      split; [split; [done | by eexists] | left; by eexists].
    + unfold query_records, bind, gets. rewrite Hsplit.
      rewrite query_records_loop_err by done. simpl.
      split; [| by right]. split; [by intros [out Hout] |].
      intros Hall. apply Forall_app in Hall as [_ Hall].
      apply Forall_cons in Hall as [[v Hv] _]. congruence.
  - intros record_id. simpl. unfold returns, get_source_block, bind, gets.
    split; [| split].
    + destruct (scan_cases record_id (_records self))
        as [Hall | [(pre & rec & post & Hsplit & Hpre & Hrec)
                   | (pre & rec & post & Hsplit & Hpre & Hrec)]].
      * split; [by left |]. intros _.
        rewrite get_source_block_loop_none by done. by eexists.
      * split; [intros _; right; by exists pre, rec, post |]. intros _.
        rewrite Hsplit, get_source_block_loop_found by done. by eexists.
      * pose proof (get_source_block_loop_err record_id pre post rec self
                      Hpre Hrec) as Herr.
        rewrite <- Hsplit in Herr. rewrite Herr. simpl.
        split; [by intros [out Hout] |].
        intros [Hall | (pre' & rec' & post' & Hsplit' & Hpre' & Hrec')].
        -- rewrite Hsplit in Hall. apply Forall_app in Hall as [_ Hall].
           apply Forall_cons in Hall as [(v & Hv & _) _]. congruence.
        -- pose proof (get_source_block_loop_found record_id pre' post' rec'
                         self Hpre' Hrec') as Hfound.
           rewrite <- Hsplit', Herr in Hfound. discriminate.
    + by apply get_source_block_loop_returns.
    + destruct (scan_cases record_id (_records self))
        as [Hall | [(pre & rec & post & Hsplit & Hpre & Hrec)
                   | (pre & rec & post & Hsplit & Hpre & Hrec)]].
      * left. rewrite get_source_block_loop_none by done. by eexists.
      * left. rewrite Hsplit, get_source_block_loop_found by done.
        by eexists.
      * right. by rewrite Hsplit, get_source_block_loop_err.
Qed.

Lemma mock_satisfies_interface_witness :
  returns source_provider_id (provider_of [job "a"; ∅]) /\
  returns (source_query_records 1) (provider_of [job "a"; ∅]) /\
  returns (source_get_source_block "a") (provider_of [job "a"; ∅]) /\
  snd (source_query_records 2 (provider_of [job "a"; ∅]))
  = inl (KeyError "job_id") /\
  snd (source_get_source_block "b" (provider_of [job "a"; ∅]))
  = inl (KeyError "job_id").
Proof.
  destruct (mock_satisfies_interface (provider_of [job "a"; ∅]))
    as (Hid & _ & _ & Hquery & Hblock).
  split; [exact Hid |]. split; [| split; [| split]].
  - apply (proj1 (Hquery 1)). repeat constructor. by eexists.
  - apply (proj1 (Hblock "a")). right. exists [], (job "a"), [∅].
    split; [reflexivity |]. split; [constructor | reflexivity].
  - destruct (proj2 (Hquery 2)) as [[out Hout] | Hraise];
      [discriminate Hout | exact Hraise].
  - destruct (proj2 (proj2 (Hblock "b"))) as [[out Hout] | Hraise];
      [discriminate Hout | exact Hraise].
Defined.

(** C7 as stated fails: the two accessors are not total. On a provider
    constructed with one record that has no ["job_id"] key, both raise
    [KeyError]. *)
Lemma mock_satisfies_interface_counterexample :
  snd (source_query_records 1 (provider_of [∅])) = inl (KeyError "job_id") /\
  snd (source_get_source_block "x" (provider_of [∅]))
  = inl (KeyError "job_id").
Proof. split; reflexivity. Qed.

(** ** Construction *)

Section Construction.
Variable now : nat -> Z.
Variable isoformat : Z -> string.

Lemma construct_empty (id name : string) :
  exists samples : list PyDict,
    _generate_sample_data now isoformat (mk id name [])
    = (mk id name [], inr samples) /\
    construct now isoformat id name [] = mk id name samples.
Proof. eexists. split; reflexivity. Qed.

Lemma construct_nonempty (id name : string) (records : list PyDict) :
  records <> [] ->
  construct now isoformat id name records = mk id name records.
Proof. intros Hne. by destruct records. Qed.

(** C3: [_generate_sample_data] returns five records, with the job
    identifiers ["job_demo_001"] to ["job_demo_005"] in this order, and
    a provider constructed with an empty list of records holds that
    list; so the default provider holds exactly five records. *)
Theorem default_provider_holds_five :
  (forall self : t,
     exists samples : list PyDict,
       _generate_sample_data now isoformat self = (self, inr samples) /\
       length samples = 5%nat /\
       map (fun rec : PyDict => rec !! "job_id") samples
       = [Some (VStr "job_demo_001"); Some (VStr "job_demo_002");
          Some (VStr "job_demo_003"); Some (VStr "job_demo_004");
          Some (VStr "job_demo_005")]) /\
  (forall id name : string,
     exists samples : list PyDict,
       _generate_sample_data now isoformat (mk id name [])
       = (mk id name [], inr samples) /\
       _records (construct now isoformat id name []) = samples) /\
  length (_records (construct_default now isoformat)) = 5%nat.
Proof.
  split; [| split].
  - intros self. eexists. split; [reflexivity |]. split; reflexivity.
  - intros id name. eexists. split; reflexivity.
  - reflexivity.
Qed.

(** C8: after construction [_records] is never empty: constructed with
    an empty list the provider holds the five generated samples,
    constructed with a list that is not empty it keeps that list, and
    no call of the accessors changes it afterwards. *)
Theorem constructed_records_nonempty (id name : string)
    (records : list PyDict) :
  _records (construct now isoformat id name records) <> [] /\
  (records = [] ->
   snd (_generate_sample_data now isoformat (mk id name records))
   = inr (_records (construct now isoformat id name records)) /\
   length (_records (construct now isoformat id name records)) = 5%nat) /\
  (records <> [] ->
   _records (construct now isoformat id name records) = records) /\
  (forall calls : list Call,
     _records (run_calls calls (construct now isoformat id name records))
     <> []).
Proof.
  assert (_records (construct now isoformat id name records) <> []) as Hne.
  { destruct records; discriminate. }
  split; [exact Hne |]. split; [| split].
  - intros ->. split; reflexivity.
  - intros Hrecords. by rewrite construct_nonempty.
  - intros calls. by rewrite run_calls_frame.
Qed.
End Construction.

Lemma constructed_records_nonempty_witness :
  length (_records (provider_of [])) = 5%nat /\
  _records (provider_of [job "a"]) = [job "a"].
Proof.
  destruct (constructed_records_nonempty epoch_clock blank_isoformat
              "p" "P" []) as (_ & Hempty & _).
  destruct (constructed_records_nonempty epoch_clock blank_isoformat
              "p" "P" [job "a"]) as (_ & _ & Hkeep & _).
  split.
  - exact (proj2 (Hempty eq_refl)).
  - apply Hkeep. discriminate.
Defined.

(** * Further properties of the provider *)

Lemma slice_to_is_take {A : Type} (l : list A) (stop : Z) :
  exists m : nat, slice_to l stop = take m l.
Proof. unfold slice_to. destruct (0 <=? stop); eauto. Qed.

Lemma slice_to_empty {A : Type} (l : list A) (stop : Z) :
  stop = 0 \/ stop <= - Z.of_nat (length l) -> slice_to l stop = [].
Proof.
  intros Hstop. unfold slice_to. destruct (0 <=? stop) eqn:E.
  - apply Z.leb_le in E. assert (Z.to_nat stop = 0%nat) as -> by lia. done.
  - apply Z.leb_gt in E.
    assert (Z.to_nat (Z.of_nat (length l) + stop) = 0%nat) as -> by lia. done.
Qed.

Lemma split_without_job_id (pre post : list PyDict) (rec : PyDict) :
  rec !! "job_id" = None -> ~ Forall has_job_id (pre ++ rec :: post).
Proof.
  intros Hrec Hall. apply Forall_app in Hall as [_ Hall].
  apply Forall_cons in Hall as [[v Hv] _]. congruence.
Qed.

(** The two outcomes of [query_records]. *)
Lemma query_records_outcome (limit : Z) (self : t) :
  (Forall has_job_id (slice_to (_records self) limit) /\
   query_records limit self
   = (self, inr (map (source_record_of (_id self))
                   (slice_to (_records self) limit)))) \/
  (~ Forall has_job_id (slice_to (_records self) limit) /\
   query_records limit self = (self, inl (KeyError "job_id"))).
Proof.
  destruct (first_without_job_id (slice_to (_records self) limit))
    as [Hall | (pre & rec & post & Hsplit & Hpre & Hrec)].
  - left. split; [done | by apply query_records_ok].
  - assert (~ Forall has_job_id (slice_to (_records self) limit)) as Hnot.
    { rewrite Hsplit. by apply split_without_job_id. }
    right. split; [done | by apply query_records_err].
Qed.

(** X1. [query_records] raises exactly when a record of the slice has no
    ["job_id"] key, wherever it stands in the slice; what it raises is
    [KeyError("job_id")], never another exception, and the records
    converted before it are lost with it. *)
Theorem query_records_raises_iff (self : t) (limit : Z) :
  (query_records limit self = (self, inl (KeyError "job_id")) <->
   exists rec : PyDict,
     rec ∈ slice_to (_records self) limit /\ rec !! "job_id" = None) /\
  (forall e : PyExc,
     snd (query_records limit self) = inl e -> e = KeyError "job_id").
Proof.
  destruct (query_records_outcome limit self) as [[Hall Hq] | [Hnot Hq]];
    rewrite Hq; simpl.
  - split; [| discriminate]. split; [discriminate |].
    intros (rec & Hin & Hrec). rewrite Forall_forall in Hall.
    destruct (Hall rec Hin) as [v Hv]. congruence.
  - split; [| by intros e [= <-]]. split; [| done]. intros _.
    destruct (first_without_job_id (slice_to (_records self) limit))
      as [Hall | (pre & rec & post & Hsplit & _ & Hrec)]; [done |].
    exists rec. split; [| done]. rewrite Hsplit. set_solver.
Qed.

(** X2. On an empty slice [query_records] returns the empty list and
    reads no record: for the limit [0], and for a limit at or below
    [-len(_records)], whatever the stored records hold. *)
Theorem query_records_empty_slice (self : t) (limit : Z) :
  limit = 0 \/ limit <= - Z.of_nat (length (_records self)) ->
  query_records limit self = (self, inr []).
Proof.
  intros Hlimit. unfold query_records, bind, gets.
  by rewrite slice_to_empty.
Qed.

Lemma query_records_empty_slice_witness :
  query_records 0 (provider_of [∅; job "a"])
  = (provider_of [∅; job "a"], inr []) /\
  query_records (-2) (provider_of [∅; job "a"])
  = (provider_of [∅; job "a"], inr []).
Proof.
  split; apply query_records_empty_slice; [by left | right; simpl; lia].
Defined.

(** X3. A smaller limit gives a prefix: when [query_records(l2)] returns a
    list, [query_records(l1)] for [0 <= l1 <= l2] returns its first [l1]
    elements, and does not raise. *)
Theorem query_records_smaller_limit (self : t) (l1 l2 : Z)
    (out : list SourceRecord.t) :
  0 <= l1 <= l2 ->
  query_records l2 self = (self, inr out) ->
  query_records l1 self = (self, inr (take (Z.to_nat l1) out)).
Proof.
  intros Hl Hq.
  destruct (query_records_outcome l2 self) as [[Hall Hq2] | [_ Hq2]];
    rewrite Hq2 in Hq; [| discriminate].
  injection Hq as <-.
  rewrite slice_to_nonneg in * by lia.
  assert (take (Z.to_nat l1) (_records self)
          = take (Z.to_nat l1) (take (Z.to_nat l2) (_records self))) as Htake.
  { rewrite take_take. f_equal. lia. }
  rewrite query_records_ok; rewrite slice_to_nonneg by lia.
  - by rewrite Htake, List.firstn_map.
  - rewrite Htake. by apply Forall_take.
Qed.

Lemma query_records_smaller_limit_witness :
  exists out : list SourceRecord.t,
    query_records 1 (provider_of [job "a"; job "b"; ∅])
    = (provider_of [job "a"; job "b"; ∅], inr (take 1 out)) /\
    length out = 2%nat.
Proof.
  eexists. split.
  - apply (query_records_smaller_limit _ 1 2); [lia | reflexivity].
  - reflexivity.
Defined.

(** X4. A block that [get_source_block(record_id)] returns has the
    identifier asked for and is built from a stored record: the first
    one whose ["job_id"] is the string [record_id], every record before it
    having another ["job_id"]. *)
Theorem get_source_block_some_sound (self : t) (record_id : string)
    (b : SourceBlock.t) :
  snd (get_source_block record_id self) = inr (Some b) ->
  SourceBlock.id b = VStr record_id /\
  exists pre rec post,
    _records self = pre ++ rec :: post /\
    Forall (other_job_id record_id) pre /\
    job_id_is record_id rec /\
    block_of (_id self) rec b.
Proof.
  unfold get_source_block, bind, gets. intros Hb.
  destruct (scan_cases record_id (_records self))
    as [Hall | [(pre & rec & post & Hsplit & Hpre & Hrec)
               | (pre & rec & post & Hsplit & Hpre & Hrec)]].
  - by rewrite get_source_block_loop_none in Hb.
  - rewrite Hsplit, get_source_block_loop_found in Hb by done.
    simpl in Hb. injection Hb as <-. split; [done |].
    exists pre, rec, post. repeat split; try done.
    all: by apply block_of_found.
  - by rewrite Hsplit, get_source_block_loop_err in Hb.
Qed.

Lemma get_source_block_some_sound_witness :
  exists b : SourceBlock.t,
    snd (get_source_block "b" (provider_of [job "a"; job "b"])) = inr (Some b) /\
    SourceBlock.id b = VStr "b".
Proof.
  eexists. split; [reflexivity |].
  apply (get_source_block_some_sound (provider_of [job "a"; job "b"]) "b").
  reflexivity.
Defined.

(** X5. [get_source_block(record_id)] returns [None] exactly when every
    stored record has a ["job_id"] key and none of them is the string
    [record_id]; a ["job_id"] that is not a string never matches. *)
Theorem get_source_block_none_iff (self : t) (record_id : string) :
  get_source_block record_id self = (self, inr None) <->
  Forall (other_job_id record_id) (_records self).
Proof.
  unfold get_source_block, bind, gets. split.
  - intros Hnone.
    destruct (scan_cases record_id (_records self))
      as [Hall | [(pre & rec & post & Hsplit & Hpre & Hrec)
                 | (pre & rec & post & Hsplit & Hpre & Hrec)]]; [done | |].
    + by rewrite Hsplit, get_source_block_loop_found in Hnone.
    + by rewrite Hsplit, get_source_block_loop_err in Hnone.
  - apply get_source_block_loop_none.
Qed.

(** X6. [get_source_block(record_id)] raises exactly when a record without
    a ["job_id"] key is stored before any record whose ["job_id"] is
    [record_id]; what it raises is [KeyError("job_id")]. A record without
    the key stored after the first match does no harm. *)
Theorem get_source_block_raises_iff (self : t) (record_id : string) :
  (get_source_block record_id self = (self, inl (KeyError "job_id")) <->
   exists pre rec post,
     _records self = pre ++ rec :: post /\
     Forall (other_job_id record_id) pre /\
     rec !! "job_id" = None) /\
  (forall e : PyExc,
     snd (get_source_block record_id self) = inl e -> e = KeyError "job_id").
Proof.
  unfold get_source_block, bind, gets.
  destruct (scan_cases record_id (_records self))
    as [Hall | [(pre & rec & post & Hsplit & Hpre & Hrec)
               | (pre & rec & post & Hsplit & Hpre & Hrec)]].
  - rewrite get_source_block_loop_none by done.
    split; [| discriminate]. split; [discriminate |].
    intros (pre & rec & post & Hsplit & _ & Hrec).
    rewrite Hsplit in Hall. apply Forall_app in Hall as [_ Hall].
    apply Forall_cons in Hall as [(v & Hv & _) _]. congruence.
  - pose proof (get_source_block_loop_found record_id pre post rec self
                  Hpre Hrec) as Hfound.
    rewrite <- Hsplit in Hfound. rewrite Hfound.
    split; [| discriminate]. split; [discriminate |].
    intros (pre' & rec' & post' & Hsplit' & Hpre' & Hrec').
    pose proof (get_source_block_loop_err record_id pre' post' rec' self
                  Hpre' Hrec') as Herr.
    rewrite <- Hsplit', Hfound in Herr. discriminate.
  - pose proof (get_source_block_loop_err record_id pre post rec self
                  Hpre Hrec) as Herr.
    rewrite <- Hsplit in Herr. rewrite Herr.
    split; [| by intros e [= <-]]. split; [| done].
    intros _. by exists pre, rec, post.
Qed.

(** A record that [query_records] lists under the identifier [s] leads the
    scan of [get_source_block(s)] to a match inside the slice. *)
Lemma listed_first_match (self : t) (limit : Z) (out : list SourceRecord.t)
    (sr : SourceRecord.t) (s : string) :
  query_records limit self = (self, inr out) ->
  sr ∈ out ->
  SourceRecord.record_id sr = VStr s ->
  exists rec pre r post,
    rec ∈ slice_to (_records self) limit /\
    sr = source_record_of (_id self) rec /\
    job_id_is s rec /\
    slice_to (_records self) limit = pre ++ r :: post /\
    Forall (other_job_id s) pre /\
    job_id_is s r /\
    get_source_block s self
    = (self, inr (Some (SourceBlock.mk
                          (VStr s) (_id self)
                          (dict_get r "text" (VStr ""))
                          (dict_get r "audio_path" VNone)
                          (dict_get r "metadata" (VDict ∅))))).
Proof.
  intros Hq Hin Hid.
  destruct (query_records_outcome limit self) as [[Hall Hq'] | [_ Hq']];
    rewrite Hq' in Hq; [| discriminate].
  injection Hq as <-.
  change (sr ∈ source_record_of (_id self) <$> slice_to (_records self) limit)
    in Hin.
  apply list_elem_of_fmap in Hin as (rec & -> & Hrec).
  assert (job_id_is s rec) as Hjob.
  { rewrite Forall_forall in Hall. destruct (Hall rec Hrec) as [v Hv].
    unfold job_id_is. simpl in Hid. rewrite dict_get_default, Hv in Hid.
    simpl in Hid. by rewrite Hv, Hid. }
  destruct (scan_cases s (slice_to (_records self) limit))
    as [Hother | [(pre & r & post & Hsplit & Hpre & Hr)
                 | (pre & r & post & Hsplit & Hpre & Hr)]].
  - rewrite Forall_forall in Hother.
    destruct (Hother rec Hrec) as (v & Hv & Hne). congruence.
  - exists rec, pre, r, post. repeat split; try done.
    destruct (slice_to_is_take (_records self) limit) as [m Hm].
    unfold get_source_block, bind, gets.
    rewrite <- (take_drop m (_records self)), <- Hm, Hsplit, <- app_assoc.
    by apply get_source_block_loop_found.
  - exfalso. rewrite Hsplit in Hall. by apply split_without_job_id in Hall.
Qed.

(** X7. Listing and lookup agree: for every [SourceRecord] that
    [query_records] returns and whose [record_id] is a string,
    [get_source_block] of that string returns a block, not [None] and not
    an exception, with that identifier and the same [provider_id]. *)
Theorem listed_record_is_found (self : t) (limit : Z)
    (out : list SourceRecord.t) (sr : SourceRecord.t) (s : string) :
  query_records limit self = (self, inr out) ->
  sr ∈ out ->
  SourceRecord.record_id sr = VStr s ->
  exists b : SourceBlock.t,
    get_source_block s self = (self, inr (Some b)) /\
    SourceBlock.id b = VStr s /\
    SourceBlock.provider_id b = SourceRecord.provider_id sr.
Proof.
  intros Hq Hin Hid.
  destruct (listed_first_match self limit out sr s Hq Hin Hid)
    as (rec & pre & r & post & _ & -> & _ & _ & _ & _ & Hblock).
  eexists. split; [exact Hblock |]. by split.
Qed.

Lemma listed_record_is_found_witness :
  exists b : SourceBlock.t,
    get_source_block "b" (provider_of [job "a"; job "b"; ∅])
    = (provider_of [job "a"; job "b"; ∅], inr (Some b)) /\
    SourceBlock.id b = VStr "b".
Proof.
  destruct (listed_record_is_found
              (provider_of [job "a"; job "b"; ∅]) 2
              [source_record_of "p" (job "a"); source_record_of "p" (job "b")]
              (source_record_of "p" (job "b")) "b")
    as (b & Hb & Hid & _).
  - reflexivity.
  - apply elem_of_cons. right. apply elem_of_cons. by left.
  - reflexivity.
  - by exists b.
Defined.

(** X8. When the listed records have pairwise distinct ["job_id"]s, the
    block found for a listed record carries the same [text] and
    [metadata]; its [media_path] is the same too, except that for a stored
    record without ["audio_path"] the listing gives [""] and the block
    [None]. *)
Theorem listed_record_block_agrees (self : t) (limit : Z)
    (out : list SourceRecord.t) (sr : SourceRecord.t) (s : string) :
  NoDup (map (fun rec : PyDict => rec !! "job_id")
           (slice_to (_records self) limit)) ->
  query_records limit self = (self, inr out) ->
  sr ∈ out ->
  SourceRecord.record_id sr = VStr s ->
  exists b : SourceBlock.t,
    get_source_block s self = (self, inr (Some b)) /\
    SourceBlock.text b = SourceRecord.text sr /\
    SourceBlock.metadata b = SourceRecord.metadata sr /\
    (SourceBlock.media_path b = SourceRecord.media_path sr \/
     SourceBlock.media_path b = VNone /\
     SourceRecord.media_path sr = VStr "").
Proof.
  intros Hdistinct Hq Hin Hid.
  destruct (listed_first_match self limit out sr s Hq Hin Hid)
    as (rec & pre & r & post & Hrec & -> & Hjob & Hsplit & Hpre & Hr
        & Hblock).
  assert (r = rec) as ->.
  { rewrite Hsplit in Hrec, Hdistinct.
    change (NoDup ((fun rec : PyDict => rec !! "job_id")
                     <$> pre ++ r :: post)) in Hdistinct.
    rewrite fmap_app, fmap_cons in Hdistinct.
    apply NoDup_app in Hdistinct as (_ & _ & Hdistinct).
    apply NoDup_cons in Hdistinct as [Hnotin _].
    apply elem_of_app in Hrec as [Hrec | Hrec].
    - rewrite Forall_forall in Hpre.
      destruct (Hpre rec Hrec) as (v & Hv & Hne).
      unfold job_id_is in Hjob. congruence.
    - apply elem_of_cons in Hrec as [-> | Hrec]; [done |].
      exfalso. apply Hnotin. unfold job_id_is in Hr, Hjob.
      rewrite Hr, <- Hjob. by apply list_elem_of_fmap_2. }
  eexists. split; [exact Hblock |]. simpl. split; [done |]. split; [done |].
  unfold dict_get. destruct (rec !! "audio_path"); [by left | by right].
Qed.

Lemma listed_record_block_agrees_witness :
  exists b : SourceBlock.t,
    get_source_block "b" (provider_of [job "a"; job "b"])
    = (provider_of [job "a"; job "b"], inr (Some b)) /\
    SourceBlock.text b = VStr "".
Proof.
  destruct (listed_record_block_agrees
              (provider_of [job "a"; job "b"]) 2
              [source_record_of "p" (job "a"); source_record_of "p" (job "b")]
              (source_record_of "p" (job "b")) "b")
    as (b & Hb & Htext & _).
  - change (NoDup [Some (VStr "a"); Some (VStr "b")]).
    apply NoDup_cons. split; [| apply NoDup_singleton].
    intros [Heq | Hin]%elem_of_cons; [discriminate |].
    by apply elem_of_nil in Hin.
  - reflexivity.
  - apply elem_of_cons. right. apply elem_of_cons. by left.
  - reflexivity.
  - exists b. split; [exact Hb | exact Htext].
Defined.

(** * Further properties of construction *)

Section Initialisation.
Variable now : nat -> Z.
Variable isoformat : Z -> string.

(** X9. [__post_init__] never raises, keeps [_id] and [_name], and is
    idempotent: run again on a provider it has initialised, at any later
    time, it changes nothing. The sample data is generated at most
    once. *)
Theorem post_init_idempotent (self : t) (later : nat -> Z) :
  snd (__post_init__ now isoformat self) = inr tt /\
  _id (fst (__post_init__ now isoformat self)) = _id self /\
  _name (fst (__post_init__ now isoformat self)) = _name self /\
  __post_init__ later isoformat (fst (__post_init__ now isoformat self))
  = (fst (__post_init__ now isoformat self), inr tt).
Proof. destruct self as [id name [| rec rest]]; by repeat split. Qed.

(** X10. A provider constructed from records that all have a ["job_id"]
    key never raises: [query_records] returns a list for every limit and
    [get_source_block] returns for every identifier. This covers the
    provider constructed without records, whose generated samples all
    have the key. *)
Theorem constructed_provider_never_raises (id name : string)
    (records : list PyDict) :
  Forall has_job_id records ->
  (forall limit : Z,
     returns (query_records limit)
       (construct now isoformat id name records)) /\
  (forall record_id : string,
     returns (get_source_block record_id)
       (construct now isoformat id name records)).
Proof.
  intros Hall.
  assert (Forall has_job_id
            (_records (construct now isoformat id name records))) as Hrecs.
  { destruct records as [| rec rest]; [| exact Hall].
    unfold construct. simpl. repeat constructor; by eexists. }
  split.
  - intros limit. unfold returns. rewrite query_records_ok; [by eexists |].
    destruct (slice_to_is_take
                (_records (construct now isoformat id name records)) limit)
      as [m ->].
    by apply Forall_take.
  - intros record_id. unfold returns, get_source_block, bind, gets.
    by apply get_source_block_loop_returns.
Qed.
End Initialisation.

Lemma constructed_provider_never_raises_witness :
  returns (query_records default_limit)
    (construct_default epoch_clock blank_isoformat) /\
  returns (get_source_block "job_demo_003")
    (construct_default epoch_clock blank_isoformat).
Proof.
  destruct (constructed_provider_never_raises epoch_clock blank_isoformat
              default_id default_name []) as [Hquery Hblock];
    [constructor |].
  split; [apply Hquery | apply Hblock].
Defined.

(** * The selection state *)

Lemma py_not_dict_true (d : PyDict) : py_not_dict d = true <-> d = ∅.
Proof.
  unfold py_not_dict. rewrite Nat.eqb_eq. apply map_size_empty_iff.
Qed.

Lemma py_not_dict_false (d : PyDict) : py_not_dict d = false <-> d <> ∅.
Proof.
  rewrite <- py_not_dict_true. destruct (py_not_dict d); split; congruence.
Qed.

Lemma selection_state_of_initial :
  selection_state_of initial_state = inr default_selection_state.
Proof. reflexivity. Qed.

(** The state of the selection step can be extracted exactly from a
    readable workflow state. *)
Lemma selection_state_of_returns (state : PyDict) :
  (exists result : PyDict, selection_state_of state = inr result) <->
  readable_state state.
Proof.
  unfold selection_state_of, readable_state. split.
  - intros [result Hresult].
    destruct (dict_get state "step_states" (VDict ∅)) as [| | | | | | steps];
      simpl in Hresult; try discriminate.
    exists steps. split; [done |].
    destruct (dict_get steps "selection" (VDict ∅)) as [| | | | | | step];
      simpl in Hresult; try discriminate.
    by exists step.
  - intros (steps & -> & step & Hstep). simpl. rewrite Hstep. simpl.
    by eexists.
Qed.

Lemma selection_state_of_raises (state : PyDict) (e : PyAttrExc) :
  selection_state_of state = inl e -> e = AttributeError "get".
Proof.
  unfold selection_state_of.
  destruct (dict_get state "step_states" (VDict ∅)) as [| | | | | | steps];
    simpl; try by intros [= <-].
  destruct (dict_get steps "selection" (VDict ∅)) as [| | | | | | step];
    simpl; by intros [= <-].
Qed.

Lemma selection_state_of_keys (state result : PyDict) :
  selection_state_of state = inr result ->
  dom result
  = {[ "selected_sources"; "grouping_mode"; "external_db_paths";
       "file_browser_state"; "active_tab" ]} /\
  result !! "active_tab" = Some (default (VStr "db") (state !! "source_tab")).
Proof.
  unfold selection_state_of.
  destruct (dict_get state "step_states" (VDict ∅)) as [| | | | | | steps];
    simpl; try discriminate.
  destruct (dict_get steps "selection" (VDict ∅)) as [| | | | | | step];
    simpl; try discriminate.
  intros [= <-]. split.
  - rewrite !dom_insert_L, dom_empty_L. set_solver.
  - rewrite !lookup_insert_ne by done. rewrite lookup_insert_eq.
    by rewrite dict_get_default.
Qed.

Section SelectionState.
Context {St : Type} `{WorkflowStateStore St}.

(** X11. On a first visit, when the store has no state for the session
    (it returns the empty dict), [get_selection_state] writes the initial
    state under the workflow and session identifiers and returns the
    defaults: no selected sources, grouping by ["media_path"], no external
    database paths, an empty file browser state and the tab ["db"]. *)
Theorem get_selection_state_first_visit (session_id : string) (store : St) :
  get_state store workflow_id session_id = ∅ ->
  get_selection_state session_id store
  = (update_state store workflow_id session_id initial_state,
     inr default_selection_state).
Proof.
  intros Hempty. unfold get_selection_state.
  rewrite (proj2 (py_not_dict_true _) Hempty).
  by rewrite selection_state_of_initial.
Qed.

(** X12. [get_selection_state] writes to the store only on a first visit:
    when the store holds a state for the session that is not empty, the
    store is left as it was, whether the call returns or raises. *)
Theorem get_selection_state_read_only (session_id : string) (store : St) :
  get_state store workflow_id session_id <> ∅ ->
  fst (get_selection_state session_id store) = store.
Proof.
  intros Hne. unfold get_selection_state.
  by rewrite (proj2 (py_not_dict_false _) Hne).
Qed.

(** X13. Whatever the stored state holds, a dict that
    [get_selection_state] returns has exactly the five keys
    ["selected_sources"], ["grouping_mode"], ["external_db_paths"],
    ["file_browser_state"] and ["active_tab"]. *)
Theorem get_selection_state_keys (session_id : string) (store : St)
    (result : PyDict) :
  snd (get_selection_state session_id store) = inr result ->
  dom result
  = {[ "selected_sources"; "grouping_mode"; "external_db_paths";
       "file_browser_state"; "active_tab" ]}.
Proof.
  unfold get_selection_state.
  destruct (py_not_dict (get_state store workflow_id session_id));
    cbn [snd]; intros Hresult;
    by apply selection_state_of_keys in Hresult as [Hdom _].
Qed.

(** X14. [get_selection_state] returns exactly when the stored state is
    empty or readable: a ["step_states"] that is not a dict, or a
    ["selection"] inside it that is not a dict (a stored [None], say),
    makes it raise, and what it raises is [AttributeError] for [get]. *)
Theorem get_selection_state_returns_iff (session_id : string) (store : St) :
  ((exists result : PyDict,
      snd (get_selection_state session_id store) = inr result) <->
   get_state store workflow_id session_id = ∅ \/
   readable_state (get_state store workflow_id session_id)) /\
  (forall e : PyAttrExc,
     snd (get_selection_state session_id store) = inl e ->
     e = AttributeError "get").
Proof.
  unfold get_selection_state.
  destruct (py_not_dict (get_state store workflow_id session_id)) eqn:E;
    simpl.
  - apply py_not_dict_true in E. split.
    + split; [by left | intros _; by eexists].
    + by rewrite selection_state_of_initial.
  - apply py_not_dict_false in E. split.
    + rewrite selection_state_of_returns. split; [by right |].
      by intros [Hempty | Hreadable].
    + apply selection_state_of_raises.
Qed.

(** X15. With a store that gives back the state written last for a
    workflow and session, [get_selection_state] initialises a session at
    most once: a second call returns what the first returned and leaves
    the store as the first left it. *)
Theorem get_selection_state_twice (session_id : string) (store : St) :
  (forall (s : St) (wid sid : string) (state : PyDict),
     get_state (update_state s wid sid state) wid sid = state) ->
  get_selection_state session_id (fst (get_selection_state session_id store))
  = get_selection_state session_id store.
Proof.
  intros Hlaw. unfold get_selection_state at 2 3.
  destruct (py_not_dict (get_state store workflow_id session_id)) eqn:E;
    simpl.
  - unfold get_selection_state. by rewrite Hlaw.
  - unfold get_selection_state. by rewrite E.
Qed.
End SelectionState.

Lemma get_selection_state_first_visit_witness :
  get_selection_state "s" (∅ : gmap (string * string) PyDict)
  = (update_state (∅ : gmap (string * string) PyDict)
       workflow_id "s" initial_state,
     inr default_selection_state).
Proof.
  apply (get_selection_state_first_visit
           "s" (∅ : gmap (string * string) PyDict)).
  reflexivity.
Defined.

Lemma get_selection_state_read_only_witness :
  fst (get_selection_state "s"
         (update_state (∅ : gmap (string * string) PyDict)
            workflow_id "s" initial_state))
  = update_state (∅ : gmap (string * string) PyDict)
      workflow_id "s" initial_state.
Proof.
  apply (get_selection_state_read_only "s"
           (update_state (∅ : gmap (string * string) PyDict)
              workflow_id "s" initial_state)).
  intros Hempty. apply (f_equal size) in Hempty.
  vm_compute in Hempty. discriminate Hempty.
Defined.

Lemma get_selection_state_keys_witness :
  dom default_selection_state
  = {[ "selected_sources"; "grouping_mode"; "external_db_paths";
       "file_browser_state"; "active_tab" ]}.
Proof.
  apply (get_selection_state_keys
           "s" (∅ : gmap (string * string) PyDict) default_selection_state).
  reflexivity.
Defined.

Lemma get_selection_state_twice_witness :
  get_selection_state "s"
    (fst (get_selection_state "s" (∅ : gmap (string * string) PyDict)))
  = get_selection_state "s" (∅ : gmap (string * string) PyDict).
Proof.
  apply (get_selection_state_twice
           "s" (∅ : gmap (string * string) PyDict)).
  intros s wid sid state. cbn [get_state update_state map_state_store].
  by rewrite lookup_insert_eq.
Defined.
